(** * The workshop notebooks' example functions, embedded and verified

    The repository is a set of tutorial notebooks.  The code cells that
    define or compute something are embedded here:

    - Part 4 (Cython): the pure-Python [fib] and its statically typed
      Cython twin;
    - Part 1 (multiprocessing): the Monte Carlo sampler
      [estimate_number_points_in_quarter_circle], the split of the work
      into per-worker tasks and the final aggregation [pi_estimate].

    Python floats are IEEE-754 binary64 numbers; they are modelled with the
    executable specification [spec_float] of the standard library, so every
    definition below computes.  Python integers are unbounded and become
    [Z].  A raised exception is the left injection of a sum. *)

From Stdlib Require Import ZArith QArith Qabs List Lia Bool Permutation.
From Stdlib Require Import Floats.SpecFloat.
From Equations Require Import Equations.
Import ListNotations.
Open Scope Z_scope.

(** ** Binary64 arithmetic *)

Definition double : Type := spec_float.

Module Double.

Definition prec : Z := 53.
Definition emax : Z := 1024.

Definition valid (x : double) : bool := valid_binary prec emax x.

(** Conversion of an integer, rounding to nearest even when it does not
    fit (C's [(double)n], Python's [float(n)]). *)
Definition of_Z (z : Z) : double := binary_normalize prec emax z 0 false.

Definition add : double -> double -> double := SFadd prec emax.
Definition mul : double -> double -> double := SFmul prec emax.
Definition div : double -> double -> double := SFdiv prec emax.
Definition leb : double -> double -> bool := SFleb.

(** The literals [0.0] and [1.0]. *)
Definition zero : double := S754_zero false.
Definition one : double := S754_finite false 4503599627370496 (-52).

Definition signed (s : bool) (m : positive) : Z := cond_Zopp s (Zpos m).

(** The exact value of a finite double, as a rational number. *)
Definition to_Q (x : double) : option Q :=
  match x with
  | S754_zero _ => Some (inject_Z 0)
  | S754_finite s m e =>
      Some (if 0 <=? e then inject_Z (signed s m * 2 ^ e)
            else Qmake (signed s m) (2 ^ Z.to_pos (- e))%positive)
  | S754_infinity _ | S754_nan => None
  end.

(** [represents x q]: [x] is finite and its exact value is [q]. *)
Definition represents (x : double) (q : Q) : Prop :=
  match to_Q x with
  | Some v => v == q
  | None => False
  end.

(** A rational is representable when some well-formed double has exactly
    that value. *)
Definition representable (q : Q) : Prop :=
  exists x : double, valid x = true /\ represents x q.

(** Truncation toward zero, the integer part that C's [(long)x] and
    Python's [int(x)] keep. *)
Definition trunc (x : double) : option Z :=
  match x with
  | S754_zero _ => Some 0
  | S754_finite s m e =>
      Some (if 0 <=? e then signed s m * 2 ^ e
            else cond_Zopp s (Zpos m / 2 ^ (- e)))
  | S754_infinity _ | S754_nan => None
  end.

(** The mathematical floor: the largest integer not above the value. *)
Definition floor (x : double) : option Z :=
  match x with
  | S754_zero _ => Some 0
  | S754_finite s m e =>
      Some (if 0 <=? e then signed s m * 2 ^ e
            else signed s m / 2 ^ (- e))
  | S754_infinity _ | S754_nan => None
  end.

End Double.

(** ** Python objects, exceptions and the built-ins the cells call *)

Inductive exn : Type :=
| TypeError
| ValueError
| OverflowError
| ZeroDivisionError
| MemoryError.

(** The objects the functions are applied to in the notebooks, and [None]
    as an object of a foreign type. *)
Inductive pyobj : Type :=
| PyInt (z : Z)
| PyBool (b : bool)
| PyFloat (x : double)
| PyNone.

(** A computation either raises or returns. *)
Definition result (A : Type) : Type := (exn + A)%type.

Definition raise {A : Type} (e : exn) : result A := inl e.
Definition ret {A : Type} (a : A) : result A := inr a.

Definition bind {A B : Type} (m : result A) (k : A -> result B) : result B :=
  match m with
  | inl e => inl e
  | inr a => k a
  end.

Notation "x <- m ;; k" := (bind m (fun x => k))
  (at level 61, m at next level, right associativity).

(** [int(o)]: integers and booleans convert as they are, a float is
    truncated toward zero; NaN and the infinities are refused. *)
Definition py_int (o : pyobj) : result Z :=
  match o with
  | PyInt z => ret z
  | PyBool b => ret (Z.b2z b)
  | PyFloat x =>
      match Double.trunc x with
      | Some z => ret z
      | None => match x with
                | S754_nan => raise ValueError
                | _ => raise OverflowError
                end
      end
  | PyNone => raise TypeError
  end.

(** The integer [range] asks of its argument ([__index__]): a float is not
    accepted here. *)
Definition py_index (o : pyobj) : result Z :=
  match o with
  | PyInt z => ret z
  | PyBool b => ret (Z.b2z b)
  | PyFloat _ | PyNone => raise TypeError
  end.

(** The floor of a finite number, the bound the sampler's count is held
    against. *)
Definition py_floor (o : pyobj) : option Z :=
  match o with
  | PyInt z => Some z
  | PyBool b => Some (Z.b2z b)
  | PyFloat x => Double.floor x
  | PyNone => None
  end.

(** The values [range(k)] yields: [0, 1, ..., k-1], none when [k <= 0]. *)
Definition py_range (k : Z) : list Z := map Z.of_nat (seq 0 (Z.to_nat k)).

(** [sum(l)] of a list of integers: starts at [0], adds left to right. *)
Definition py_sum (l : list Z) : Z := fold_left Z.add l 0.

(** [a / b] on integers (true division): the quotient correctly rounded
    to a double; a zero divisor and a quotient beyond the doubles raise. *)
Definition py_truediv (a b : Z) : result double :=
  if b =? 0 then raise ZeroDivisionError
  else
    let negate := xorb (a <? 0) (b <? 0) in
    if a =? 0 then ret (S754_zero negate)
    else
      match Double.div (S754_finite (a <? 0) (Z.to_pos (Z.abs a)) 0)
                       (S754_finite (b <? 0) (Z.to_pos (Z.abs b)) 0) with
      | S754_infinity _ => raise OverflowError
      | q => ret q
      end.

(** The largest [Py_ssize_t] of a 64-bit CPython, [sys.maxsize]. *)
Definition PY_SSIZE_T_MAX : Z := 2 ^ 63 - 1.

(** [[x] * b] on a machine whose memory holds a list of at most [capacity]
    entries.  A count that does not fit a [Py_ssize_t] raises
    [OverflowError]; a count that fits and is not positive gives the empty
    list; a list of more than [PY_SSIZE_T_MAX / 8] entries (8 bytes each)
    is refused by CPython itself, and one of more than [capacity] entries
    by the allocator, both with [MemoryError]. *)
Definition py_list_repeat_within {A : Type}
    (capacity : Z) (x : A) (b : Z) : result (list A) :=
  if (b <? - PY_SSIZE_T_MAX - 1) || (PY_SSIZE_T_MAX <? b)
  then raise OverflowError
  else if b <=? 0 then ret []
  else if Z.min capacity (PY_SSIZE_T_MAX / 8) <? b then raise MemoryError
  else ret (repeat x (Z.to_nat b)).

(** [[x] * b] with all the memory CPython can ask for. *)
Definition py_list_repeat {A : Type} (x : A) (b : Z) : result (list A) :=
  py_list_repeat_within (PY_SSIZE_T_MAX / 8) x b.

(** ** Part 4: the Fibonacci function *)

(** The loop body [a, b = a + b, a]; the loop variable is not used. *)
Definition fib_step (st : double * double) (_i : Z) : double * double :=
  let '(a, b) := st in (Double.add a b, a).

(** The pure-Python cell:
<<
def fib(n):
    a = 0.0
    b = 1.0
    for i in range(n):
        a, b = a + b, a
    return a
>> *)
Definition fib (n : pyobj) : result double :=
  k <- py_index n ;;
  ret (fst (fold_left fib_step (py_range k) (Double.zero, Double.one))).

(** The Fibonacci numbers: F(0) = 0, F(1) = 1, F(k) = F(k-1) + F(k-2). *)
Fixpoint Fibonacci (n : nat) : Z :=
  match n with
  | O => 0
  | S m => match m with
           | O => 1
           | S k => Fibonacci m + Fibonacci k
           end
  end.

(** The Cython cell declares [int n], [cdef int i], [cdef double a, b]. *)
Definition INT_MIN : Z := - 2 ^ 31.
Definition INT_MAX : Z := 2 ^ 31 - 1.

(** Conversion of a Python integer to a C [int] at the call. *)
Definition as_c_int (n : Z) : result Z :=
  if (INT_MIN <=? n) && (n <=? INT_MAX) then ret n else raise OverflowError.

(** With a typed counter, [for i in range(n)] is compiled to the C loop
    [for (i = 0; i < n; i++)].  [None] stands for the undefined behaviour
    of a signed increment past [INT_MAX]. *)
Equations? cy_for (i n : Z) (a b : double) : option double
  by wf (Z.to_nat (n - i)) lt :=
  cy_for i n a b with Z_lt_dec i n => {
    | right _ := Some a;
    | left _ with Z_le_dec (i + 1) INT_MAX => {
        | left _ := cy_for (i + 1) n (Double.add a b) a;
        | right _ := None } }.
Proof. lia. Qed.

(** The Cython cell:
<<
def fib(int n):
    cdef int i
    cdef double a = 0.0
    cdef double b = 1.0
    for i in range(n):
        a, b = a + b, a
    return a
>> *)
Definition cy_fib (n : Z) : result (option double) :=
  n <- as_c_int n ;;
  ret (cy_for 0 n Double.zero Double.one).

(** Addition of two C [int]s; [None] when the sum does not fit, which C
    leaves undefined. *)
Definition c_int_add (a b : Z) : option Z :=
  if (INT_MIN <=? a + b) && (a + b <=? INT_MAX) then Some (a + b) else None.

(** The [prange] cells:
<<
cdef int i
cdef int n = 30
cdef int sum = 0

for i in prange(n, nogil=True):
    sum += i

print(sum)
>>
    The in-place operator makes [sum] a reduction variable: each thread
    adds the iterations it is given into a copy of its own that starts at
    0, and after the loop the copies are added to [sum].  Which thread
    runs which iterations, and in which order, is left to the runtime: a
    schedule lists, thread by thread, the iterations a thread runs. *)
Definition thread_sum (iterations : list Z) : option Z :=
  fold_left (fun acc i => match acc with
                          | Some s => c_int_add s i
                          | None => None
                          end) iterations (Some 0).

Definition prange_sum (schedule : list (list Z)) (sum : Z) : option Z :=
  fold_left (fun acc iterations =>
               match acc, thread_sum iterations with
               | Some s, Some p => c_int_add s p
               | _, _ => None
               end) schedule (Some sum).

(** A schedule of [prange(n)] runs every iteration of [range(n)] once. *)
Definition is_schedule (n : Z) (schedule : list (list Z)) : Prop :=
  Permutation (concat schedule) (py_range n).

(** ** Part 1: the Monte Carlo estimate of pi *)

(** The module-level generator of [random]: a state, and the call
    [random.uniform(0, 1)] that returns a float and moves the state on. *)
Class RandomSource (rng : Type) : Type :=
  { random_uniform01 : rng -> double * rng }.

Section Estimator.

Context {rng : Type} {RS : RandomSource rng}.

(** One pass through the loop body; the loop variable [step] is unused. *)
Definition trial (acc : Z * rng) (_step : Z) : Z * rng :=
  let '(number_trials_in_quarter_circle, g) := acc in
  let '(x, g) := random_uniform01 g in
  let '(y, g) := random_uniform01 g in
  let is_in_unit_circle :=
    Double.leb (Double.add (Double.mul x x) (Double.mul y y)) Double.one in
  (number_trials_in_quarter_circle + Z.b2z is_in_unit_circle, g).

(** The sampler, with the generator state it reads and leaves behind:
<<
def estimate_number_points_in_quarter_circle(number_estimates):
    number_trials_in_quarter_circle = 0
    for step in range(int(number_estimates)):
        x = random.uniform(0, 1)
        y = random.uniform(0, 1)
        is_in_unit_circle = x * x + y * y <= 1.0
        number_trials_in_quarter_circle += is_in_unit_circle
    return number_trials_in_quarter_circle
>> *)
Definition estimate_number_points_in_quarter_circle
    (number_estimates : pyobj) (g : rng) : result Z * rng :=
  match py_int number_estimates with
  | inl e => (inl e, g)
  | inr k =>
      let '(number_trials_in_quarter_circle, g') :=
        fold_left trial (py_range k) (0, g) in
      (inr number_trials_in_quarter_circle, g')
  end.

(** The generator state after [n] calls of [random.uniform(0, 1)]. *)
Definition draws (n : nat) (g : rng) : rng :=
  Nat.iter n (fun g => snd (random_uniform01 g)) g.

End Estimator.

(** A generator that also counts how often it is called. *)
#[export] Instance CountingSource {rng : Type} {RS : RandomSource rng} :
  RandomSource (rng * nat) :=
  {| random_uniform01 := fun '(g, calls) =>
       let '(x, g') := random_uniform01 g in (x, (g', S calls)) |}.

(** The driver cells. *)
Definition number_samples_in_total : Z := 10000.
Definition number_parallel_blocks : Z := 16.

(** [number_samples_in_total / number_parallel_blocks], for any two
    settings of the parameters the notebook invites the reader to change. *)
Definition number_samples_per_worker_task_of (n b : Z) : result double :=
  py_truediv n b.

Definition number_samples_per_worker_task : result double :=
  number_samples_per_worker_task_of number_samples_in_total
                                    number_parallel_blocks.

(** [[number_samples_per_worker_task] * number_parallel_blocks] *)
Definition number_trials_per_process_of (n b : Z) : result (list double) :=
  x <- number_samples_per_worker_task_of n b ;;
  py_list_repeat x b.



(** [sum(number_in_unit_circles) * 4 / number_samples_in_total] *)
Definition pi_estimate (number_in_unit_circles : list Z) : result double :=
  py_truediv (py_sum number_in_unit_circles * 4) number_samples_in_total.


(** ** The generator behind [random]: MT19937

    [RandomSource] is the interface the sampler needs.  To run it at a
    concrete state, this module gives the generator that CPython's [random]
    module implements (the Mersenne Twister, 624 words of 32 bits and an
    index), with [random.seed(n)] for an integer [n], [random.random()]
    and [random.uniform(a, b)] for integer bounds. *)

Module MT.

Definition N : nat := 624.
Definition M : nat := 397.
Definition MATRIX_A : Z := 0x9908b0df.
Definition UPPER_MASK : Z := 0x80000000.
Definition LOWER_MASK : Z := 0x7fffffff.

(** Arithmetic on [uint32_t] wraps modulo 2^32. *)
Definition u32 (z : Z) : Z := z mod 2 ^ 32.

Definition get (l : list Z) (i : nat) : Z := nth i l 0.

Fixpoint upd (i : nat) (v : Z) (l : list Z) : list Z :=
  match l, i with
  | [], _ => []
  | _ :: t, O => v :: t
  | h :: t, S j => h :: upd j v t
  end.

Record state : Type := { mt : list Z; index : nat }.

Definition mag01 (bit : Z) : Z := if bit =? 0 then 0 else MATRIX_A.

(** [y = (mt[kk] & UPPER_MASK) | (mt[nxt] & LOWER_MASK);
     mt[kk] = mt[src] ^ (y >> 1) ^ mag01[y & 1]] *)
Definition twist (mt : list Z) (kk nxt src : nat) : list Z :=
  let y := Z.lor (Z.land (get mt kk) UPPER_MASK)
                 (Z.land (get mt nxt) LOWER_MASK) in
  upd kk (Z.lxor (Z.lxor (get mt src) (Z.shiftr y 1))
                 (mag01 (Z.land y 1))) mt.

(** The in-place regeneration of all [N] words. *)
Definition regenerate (mt : list Z) : list Z :=
  let mt1 := fold_left (fun mt kk => twist mt kk (kk + 1) (kk + M))
                       (seq 0 (N - M)) mt in
  let mt2 := fold_left (fun mt kk => twist mt kk (kk + 1) (kk + M - N))
                       (seq (N - M) (M - 1)) mt1 in
  twist mt2 (N - 1) 0 (M - 1).

Definition temper (y : Z) : Z :=
  let y := Z.lxor y (Z.shiftr y 11) in
  let y := Z.lxor y (Z.land (u32 (Z.shiftl y 7)) 0x9d2c5680) in
  let y := Z.lxor y (Z.land (u32 (Z.shiftl y 15)) 0xefc60000) in
  Z.lxor y (Z.shiftr y 18).

Definition genrand_uint32 (s : state) : Z * state :=
  let s1 := if (N <=? index s)%nat
            then {| mt := regenerate (mt s); index := 0 |}
            else s in
  (temper (get (mt s1) (index s1)),
   {| mt := mt s1; index := S (index s1) |}).

(** [random.random()]: 53 random bits scaled into [0, 1):
    [(a * 67108864.0 + b) * (1.0 / 9007199254740992.0)]. *)
Definition random (s : state) : double * state :=
  let '(a, s1) := genrand_uint32 s in
  let '(b, s2) := genrand_uint32 s1 in
  let a := Z.shiftr a 5 in
  let b := Z.shiftr b 6 in
  (Double.mul
     (Double.add (Double.mul (Double.of_Z a) (Double.of_Z 67108864))
                 (Double.of_Z b))
     (Double.div Double.one (Double.of_Z 9007199254740992)),
   s2).

(** [random.uniform(a, b)] is [a + (b - a) * random()]. *)
Definition uniform (a b : Z) (s : state) : double * state :=
  let '(r, s') := random s in
  (Double.add (Double.of_Z a) (Double.mul (Double.of_Z (b - a)) r), s').

Definition init_genrand (s : Z) : state :=
  let step (acc : list Z * Z) (mti : nat) :=
    let '(l, prev) := acc in
    let v := u32 (1812433253 * Z.lxor prev (Z.shiftr prev 30)
                  + Z.of_nat mti) in
    (v :: l, v) in
  {| mt := rev (fst (fold_left step (seq 1 (N - 1)) ([s], s)));
     index := N |}.

Definition init_by_array (key : list Z) : state :=
  let key_length := length key in
  let s0 := init_genrand 19650218 in
  let mix1 (acc : list Z * nat * nat) (_k : nat) :=
    let '(mt, i, j) := acc in
    let p := get mt (i - 1) in
    let mt := upd i (u32 (Z.lxor (get mt i)
                                 (Z.lxor p (Z.shiftr p 30) * 1664525)
                          + nth j key 0 + Z.of_nat j)) mt in
    let i := S i in
    let j := S j in
    let '(mt, i) := if (N <=? i)%nat
                    then (upd 0 (get mt (N - 1)) mt, 1%nat)
                    else (mt, i) in
    let j := if (key_length <=? j)%nat then 0%nat else j in
    (mt, i, j) in
  let '(mt1, i1, _) :=
    fold_left mix1 (seq 0 (Nat.max N key_length)) (mt s0, 1%nat, 0%nat) in
  let mix2 (acc : list Z * nat) (_k : nat) :=
    let '(mt, i) := acc in
    let p := get mt (i - 1) in
    let mt := upd i (u32 (Z.lxor (get mt i)
                                 (Z.lxor p (Z.shiftr p 30) * 1566083941)
                          - Z.of_nat i)) mt in
    let i := S i in
    if (N <=? i)%nat then (upd 0 (get mt (N - 1)) mt, 1%nat) else (mt, i) in
  let '(mt2, _) := fold_left mix2 (seq 0 (N - 1)) (mt1, i1) in
  {| mt := upd 0 0x80000000 mt2; index := index s0 |}.

(** [random.seed(n)] for an integer [n]: the key is [abs(n)] in 32-bit
    words, least significant first, one word at least. *)
Definition seed (n : Z) : state :=
  let n := Z.abs n in
  let words := Z.to_nat (Z.log2 n / 32 + 1) in
  init_by_array
    (map (fun i => u32 (Z.shiftr n (32 * Z.of_nat i))) (seq 0 words)).

End MT.

#[export] Instance MersenneTwister : RandomSource MT.state :=
  {| random_uniform01 := MT.uniform 0 1 |}.

(** The generator right after [random.seed(0)]. *)
Definition seeded_generator : MT.state := MT.seed 0.

(** ** Auxiliary definitions

    Executable checks and reformulations that the proofs below run or
    reason with; none of them is part of the notebooks. *)

(** The pair iteration that computes them in linear time. *)
Definition Fibonacci_pair (n : nat) : Z * Z :=
  Nat.iter n (fun '(a, b) => (b, a + b)) (0, 1).

(** The odd part of a positive number: its trailing zero bits removed. *)
Fixpoint odd_part (p : positive) : positive :=
  match p with
  | xO q => odd_part q
  | _ => p
  end.

(** From the 79th on, no Fibonacci number below 2^1024 fits in 53 bits,
    even with its trailing zeros removed.  One pass over the sequence
    checks it. *)
Fixpoint wide_scan (count : nat) (a b : Z) : bool :=
  match count with
  | O => true
  | S c => (2 ^ 53 <=? Zpos (odd_part (Z.to_pos a))) && wide_scan c b (a + b)
  end.

(** The loop of [fib] only counts its iterations. *)
Fixpoint fib_loop (k : nat) (st : double * double) : double * double :=
  match k with
  | O => st
  | S k' => fib_loop k' (fib_step st 0)
  end.

(** Up to the 78th, the doubles the loop produces are the Fibonacci
    numbers themselves. *)
Definition fib_exact (k : nat) : bool :=
  match Double.to_Q (fst (fib_loop k (Double.zero, Double.one))) with
  | Some v => Qeq_bool v (inject_Z (fst (Fibonacci_pair k)))
  | None => false
  end.

(** For a total of [total] points in the circle: the quotient is a finite
    double in [0, 4] within half a unit in the last place of the exact
    [4 * total / 10000]. *)
Definition pi_estimate_rounded (total : nat) : bool :=
  match py_truediv (Z.of_nat total * 4) number_samples_in_total with
  | inr x =>
      match Double.to_Q x with
      | Some v =>
          let q := Qmake (4 * Z.of_nat total) 10000 in
          Qle_bool (Qabs (v - q)) (q * (1 # 2 ^ 53))
          && Qle_bool (inject_Z 0) v && Qle_bool v (inject_Z 4)
      | None => false
      end
  | inl _ => false
  end.

(** One pass along the loop of [fib] with the Fibonacci numbers beside it:
    at the [k]-th state [(a, b)] of the loop, [check k F(k) a b] is asked. *)
Fixpoint fib_scan (check : nat -> Z -> double -> double -> bool)
    (count k : nat) (fa fb : Z) (st : double * double) : bool :=
  match count with
  | O => true
  | S c =>
      check k fa (fst st) (snd st)
      && fib_scan check c (S k) fb (fa + fb) (fib_step st 0)
  end.

(** The value of a double that is known to be finite. *)
Definition value (x : double) : Q :=
  match Double.to_Q x with
  | Some v => v
  | None => inject_Z 0
  end.

(** What the scan asks of the state [(a, b)] after [k] iterations: [a] is
    finite and within a relative error of 2^-49 of F(k), and from the
    second state up to the last finite one the next value [a + b] is finite
    and larger. *)
Definition fib_state_ok (k : nat) (F : Z) (a b : double) : bool :=
  match Double.to_Q a with
  | Some v =>
      Qle_bool (Qabs (v - inject_Z F)) (inject_Z F * (1 # 2 ^ 49))
      && ((k <? 2)%nat || (1476 <=? k)%nat
          || match Double.to_Q (Double.add a b) with
             | Some w => negb (Qle_bool w v)
             | None => false
             end)
  | None => false
  end.

(** A double that is neither NaN nor minus infinity adds to plus infinity
    without harm. *)
Definition adds_to_infinity (x : double) : bool :=
  match x with
  | S754_nan | S754_infinity true => false
  | _ => true
  end.

(** The sampling loop only counts its passes. *)
Fixpoint run_trials {rng : Type} {RS : RandomSource rng}
    (k : nat) (acc : Z * rng) : Z * rng :=
  match k with
  | O => acc
  | S k' => run_trials k' (trial acc 0)
  end.

(** The first [k] points the sampler draws from a generator state. *)
Fixpoint drawn_points {rng : Type} {RS : RandomSource rng}
    (k : nat) (g : rng) : list (double * double) :=
  match k with
  | O => []
  | S k' =>
      let '(x, g1) := random_uniform01 g in
      let '(y, g2) := random_uniform01 g1 in
      (x, y) :: drawn_points k' g2
  end.

(** The test of the loop body, [x * x + y * y <= 1.0]. *)
Definition in_unit_circle (p : double * double) : bool :=
  Double.leb (Double.add (Double.mul (fst p) (fst p))
                         (Double.mul (snd p) (snd p))) Double.one.

(** The number an object stands for, when it is a finite number. *)
Definition py_value (o : pyobj) : option Q :=
  match o with
  | PyInt z => Some (inject_Z z)
  | PyBool b => Some (inject_Z (Z.b2z b))
  | PyFloat x => Double.to_Q x
  | PyNone => None
  end.

(** The plain sum of a list of integers. *)
Fixpoint sum_list (l : list Z) : Z :=
  match l with
  | [] => 0
  | i :: l' => i + sum_list l'
  end.

(** One pass over [t, t + 1, ...] that asks [f] of each. *)
Fixpoint holds_from (f : Z -> bool) (count : nat) (t : Z) : bool :=
  match count with
  | O => true
  | S c => f t && holds_from f c (t + 1)
  end.

(** [pi_estimate_rounded] on an integer total. *)
Definition pi_estimate_rounded_at (total : Z) : bool :=
  match py_truediv (total * 4) number_samples_in_total with
  | inr x =>
      match Double.to_Q x with
      | Some v =>
          let q := Qmake (4 * total) 10000 in
          Qle_bool (Qabs (v - q)) (q * (1 # 2 ^ 53))
          && Qle_bool (inject_Z 0) v && Qle_bool v (inject_Z 4)
      | None => false
      end
  | inl _ => false
  end.

(** For [b] blocks, the worker's [int] of the quotient [10000 / b] is the
    integer quotient. *)
Definition split_keeps_quotient (b : Z) : bool :=
  match number_samples_per_worker_task_of number_samples_in_total b with
  | inr x =>
      match py_int (PyFloat x) with
      | inr k => k =? number_samples_in_total / b
      | inl _ => false
      end
  | inl _ => false
  end.

(** The exact value of [pi_estimate] for a total of [total] points. *)
Definition pi_value (total : Z) : Q :=
  match py_truediv (total * 4) number_samples_in_total with
  | inr x => value x
  | inl _ => inject_Z 0
  end.

(** One pass over [f (t + 1), f (t + 2), ...] that checks each value to be
    larger than the one before. *)
Fixpoint increasing_from (f : Z -> Q) (count : nat) (t : Z) (prev : Q) : bool :=
  match count with
  | O => true
  | S c =>
      let next := f (t + 1) in
      negb (Qle_bool next prev) && increasing_from f c (t + 1) next
  end.

(** * Facts *)

(** An equation between two outcomes: either they clash, or they carry
    the same exception. *)
Ltac same_error :=
  unfold ret, raise;
  let H := fresh "H" in
  intros H; first [discriminate H | injection H as ->; reflexivity].

(** ** The definitions at work *)

Example fib_10 : fib (PyInt 10) = inr (Double.of_Z 55).
Proof. reflexivity. Qed.

Example fib_of_a_float : fib (PyFloat Double.one) = inl TypeError.
Proof. reflexivity. Qed.

Example cy_fib_10 : cy_fib 10 = inr (Some (Double.of_Z 55)).
Proof. reflexivity. Qed.

(** After [random.seed(0)], [random.random()] returns 0.8444218515250481,
    which is 7605875871743422 / 2^53. *)
Example first_draw_after_seed_0 :
  fst (MT.random seeded_generator)
  = S754_finite false 7605875871743422 (-53).
Proof. now vm_compute. Qed.

(** [10000 / 16] is [625.0]. *)
Example samples_per_worker_task :
  number_samples_per_worker_task = inr (Double.of_Z 625).
Proof. now vm_compute. Qed.

(** A quotient beyond the doubles raises. *)
Example truediv_overflow : py_truediv (2 ^ 1024) 1 = inl OverflowError.
Proof. now vm_compute. Qed.

(** [int(float('inf'))] raises, and so does the sampler. *)
Example estimate_of_infinity :
  fst (estimate_number_points_in_quarter_circle
         (PyFloat (S754_infinity false)) seeded_generator)
  = inl OverflowError.
Proof. reflexivity. Qed.

(** ** Well-formed doubles *)

Lemma digits2_pos_bound (m : positive) : Zpos m < 2 ^ Zpos (digits2_pos m).
Proof.
  induction m as [p IH | p IH | ]; cbn [digits2_pos].
  - rewrite Pos2Z.inj_succ, Z.pow_succ_r by lia. lia.
  - rewrite Pos2Z.inj_succ, Z.pow_succ_r by lia. lia.
  - reflexivity.
Qed.

Lemma valid_finite_bounds (s : bool) (m : positive) (e : Z) :
  Double.valid (S754_finite s m e) = true ->
  Zpos m < 2 ^ 53 /\ e <= 971.
Proof.
  unfold Double.valid, valid_binary, bounded, canonical_mantissa, fexp, emin,
    Double.prec, Double.emax.
  intros H. apply andb_true_iff in H. destruct H as [Hc He].
  apply Z.eqb_eq in Hc. apply Z.leb_le in He.
  split; [ | lia].
  pose proof (digits2_pos_bound m) as Hd.
  assert (Hle : Zpos (digits2_pos m) <= 53) by lia.
  apply (Z.pow_le_mono_r 2) in Hle; lia.
Qed.

(** ** The Fibonacci numbers *)

Lemma Fibonacci_pair_spec (n : nat) :
  Fibonacci_pair n = (Fibonacci n, Fibonacci (S n)).
Proof.
  induction n as [ | n IH]; [reflexivity | ].
  assert (E : Fibonacci_pair (S n)
              = let '(a, b) := Fibonacci_pair n in (b, a + b)) by reflexivity.
  rewrite E, IH.
  change (Fibonacci (S (S n))) with (Fibonacci (S n) + Fibonacci n).
  f_equal. lia.
Qed.

Lemma Fibonacci_fast (n : nat) : Fibonacci n = fst (Fibonacci_pair n).
Proof. now rewrite Fibonacci_pair_spec. Qed.

Lemma Fibonacci_step (n : nat) :
  0 <= Fibonacci n <= Fibonacci (S n).
Proof.
  induction n as [ | n IH]; [cbn; lia | ].
  change (Fibonacci (S (S n))) with (Fibonacci (S n) + Fibonacci n). lia.
Qed.

Lemma Fibonacci_mono (n m : nat) :
  (n <= m)%nat -> Fibonacci n <= Fibonacci m.
Proof.
  induction 1 as [ | m _ IH]; [lia | ].
  pose proof (Fibonacci_step m). lia.
Qed.

Lemma Fibonacci_79 : 2 ^ 53 < Fibonacci 79.
Proof. rewrite Fibonacci_fast. now vm_compute. Qed.

Lemma Fibonacci_1477 : 2 ^ 1024 <= Fibonacci 1477.
Proof. rewrite Fibonacci_fast. now vm_compute. Qed.

Lemma odd_part_le (p : positive) : Zpos (odd_part p) <= Zpos p.
Proof. induction p; cbn [odd_part]; lia. Qed.

Lemma odd_part_shift (k : nat) (m : positive) :
  exists p, Zpos m * 2 ^ Z.of_nat k = Zpos p /\ odd_part p = odd_part m.
Proof.
  induction k as [ | k [p [Hp Ho]]].
  - exists m. split; [cbn; lia | reflexivity].
  - exists (xO p). split; [ | exact Ho].
    rewrite Nat2Z.inj_succ, Z.pow_succ_r by lia. lia.
Qed.

Lemma Fibonacci_pair_succ (n : nat) :
  Fibonacci_pair (S n)
  = (snd (Fibonacci_pair n), fst (Fibonacci_pair n) + snd (Fibonacci_pair n)).
Proof.
  change (Fibonacci_pair (S n))
    with (let '(a, b) := Fibonacci_pair n in (b, a + b)).
  now destruct (Fibonacci_pair n).
Qed.

Lemma wide_scan_sound (count : nat) :
  forall n : nat,
    wide_scan count (fst (Fibonacci_pair n)) (snd (Fibonacci_pair n)) = true ->
    forall m : nat, (n <= m < n + count)%nat ->
      2 ^ 53 <= Zpos (odd_part (Z.to_pos (fst (Fibonacci_pair m)))).
Proof.
  induction count as [ | c IH]; intros n H m Hm; [lia | ].
  cbn [wide_scan] in H. apply andb_true_iff in H. destruct H as [H0 H].
  destruct (Nat.eq_dec m n) as [-> | Hne]; [now apply Z.leb_le | ].
  apply (IH (S n)); [ | lia].
  rewrite Fibonacci_pair_succ. exact H.
Qed.

Lemma wide_from_79 :
  wide_scan 1398 (fst (Fibonacci_pair 79)) (snd (Fibonacci_pair 79)) = true.
Proof. now vm_compute. Qed.

Lemma Fibonacci_wide (n : nat) :
  (79 <= n < 1477)%nat ->
  2 ^ 53 <= Zpos (odd_part (Z.to_pos (Fibonacci n))).
Proof.
  intros Hn. rewrite Fibonacci_fast.
  apply (wide_scan_sound 1398 79 wide_from_79). exact Hn.
Qed.

Lemma Fibonacci_ge_79 (n : nat) : (79 <= n)%nat -> 2 ^ 53 < Fibonacci n.
Proof.
  intros Hn. eapply Z.lt_le_trans;
    [apply Fibonacci_79 | apply Fibonacci_mono, Hn].
Qed.

Lemma Fibonacci_ge_1477 (n : nat) :
  (1477 <= n)%nat -> 2 ^ 1024 <= Fibonacci n.
Proof.
  intros Hn. eapply Z.le_trans;
    [apply Fibonacci_1477 | apply Fibonacci_mono, Hn].
Qed.

Lemma Fibonacci_not_representable (n : nat) :
  (79 <= n)%nat -> ~ Double.representable (inject_Z (Fibonacci n)).
Proof.
  intros Hn [x [Hv Hr]].
  pose proof (Fibonacci_ge_79 n Hn) as Hbig.
  destruct x as [s | s | | s m e]; unfold Double.represents in Hr;
    cbn [Double.to_Q] in Hr; try contradiction.
  - unfold Qeq in Hr. cbn [inject_Z Qnum Qden] in Hr. lia.
  - apply valid_finite_bounds in Hv. destruct Hv as [Hm He].
    destruct (0 <=? e) eqn:E.
    + apply Z.leb_le in E. unfold Qeq in Hr. cbn [inject_Z Qnum Qden] in Hr.
      rewrite !Z.mul_1_r in Hr.
      assert (H2e : 0 < 2 ^ e) by (apply Z.pow_pos_nonneg; lia).
      destruct s; unfold Double.signed, cond_Zopp in Hr; [nia | ].
      assert (Hlt : (n < 1477)%nat).
      { destruct (le_lt_dec 1477 n) as [Hge | ]; [ | assumption].
        pose proof (Fibonacci_ge_1477 n Hge) as Hhuge.
        assert (H971 : 2 ^ e <= 2 ^ 971) by (apply Z.pow_le_mono_r; lia).
        assert (Hprod : Zpos m * 2 ^ e < 2 ^ 53 * 2 ^ 971) by nia.
        change (2 ^ 53 * 2 ^ 971) with (2 ^ 1024) in Hprod. lia. }
      pose proof (Fibonacci_wide n (conj Hn Hlt)) as Hw.
      destruct (odd_part_shift (Z.to_nat e) m) as [p [Hp Ho]].
      rewrite Z2Nat.id in Hp by lia.
      rewrite <- Hr, Hp in Hw. cbn [Z.to_pos] in Hw. rewrite Ho in Hw.
      pose proof (odd_part_le m). lia.
    + unfold Qeq in Hr. cbn [inject_Z Qnum Qden] in Hr.
      destruct s; unfold Double.signed, cond_Zopp in Hr; nia.
Qed.

(** ** [fib] against the Fibonacci numbers *)

Lemma fold_left_fib_step (l : list Z) (st : double * double) :
  fold_left fib_step l st = fib_loop (length l) st.
Proof.
  revert st. induction l as [ | i l IH]; intros st; [reflexivity | ].
  cbn [fold_left length fib_loop]. rewrite IH. now destruct st.
Qed.

Lemma length_py_range (k : Z) : length (py_range k) = Z.to_nat k.
Proof. unfold py_range. now rewrite length_map, length_seq. Qed.

Lemma py_range_nonpos (k : Z) : k <= 0 -> py_range k = [].
Proof.
  intros Hk. unfold py_range.
  replace (Z.to_nat k) with O by lia. reflexivity.
Qed.

Lemma fib_int (n : Z) :
  fib (PyInt n) = inr (fst (fib_loop (Z.to_nat n) (Double.zero, Double.one))).
Proof.
  unfold fib. cbn [py_index bind ret].
  now rewrite fold_left_fib_step, length_py_range.
Qed.

Lemma fib_exact_upto_78 : forallb fib_exact (seq 0 79) = true.
Proof. now vm_compute. Qed.

Lemma fib_loop_exact (k : nat) :
  (k < 79)%nat ->
  Double.represents (fst (fib_loop k (Double.zero, Double.one)))
                    (inject_Z (Fibonacci k)).
Proof.
  intros Hk.
  assert (H : fib_exact k = true).
  { apply (proj1 (forallb_forall fib_exact _) fib_exact_upto_78 k).
    apply in_seq. split; [apply Nat.le_0_l | exact Hk]. }
  unfold fib_exact in H. unfold Double.represents.
  destruct (Double.to_Q _) as [v | ]; [ | discriminate].
  apply Qeq_bool_iff in H. now rewrite Fibonacci_fast.
Qed.

(** ** The Cython loop *)

Lemma cy_for_spec (k : nat) :
  forall (i n : Z) (a b : double),
    n <= INT_MAX ->
    Z.to_nat (n - i) = k ->
    cy_for i n a b = Some (fst (fib_loop k (a, b))).
Proof.
  induction k as [ | k IH]; intros i n a b Hmax Hk; simp cy_for;
    destruct (Z_lt_dec i n) as [Hlt | Hge]; simp cy_for; try lia.
  - reflexivity.
  - destruct (Z_le_dec (i + 1) INT_MAX) as [Hle | Hgt]; simp cy_for;
      [ | lia].
    assert (Hk' : Z.to_nat (n - (i + 1)) = k) by lia.
    pose proof (IH (i + 1) n (Double.add a b) a Hmax Hk') as IH'.
    simp cy_for in IH'. exact IH'.
Qed.

Lemma as_c_int_in_range (n : Z) :
  INT_MIN <= n <= INT_MAX -> as_c_int n = inr n.
Proof.
  intros [Hlo Hhi]. unfold as_c_int.
  apply Z.leb_le in Hlo. apply Z.leb_le in Hhi. now rewrite Hlo, Hhi.
Qed.

(** ** Truncation and floor *)

Lemma trunc_of_nonneg_floor (x : double) (fl : Z) :
  Double.floor x = Some fl -> 0 <= fl -> Double.trunc x = Some fl.
Proof.
  destruct x as [s | s | | s m e]; cbn [Double.floor Double.trunc];
    try discriminate; [easy | ].
  intros Hfl Hpos. injection Hfl as Hfl. f_equal.
  destruct (0 <=? e) eqn:E; [exact Hfl | ].
  apply Z.leb_gt in E.
  assert (H2 : 0 < 2 ^ (- e)) by (apply Z.pow_pos_nonneg; lia).
  destruct s; unfold Double.signed, cond_Zopp in *; [ | exact Hfl].
  assert (Hneg : Z.neg m / 2 ^ (- e) < 0)
    by (apply Z.div_lt_upper_bound; lia).
  lia.
Qed.

Lemma floor_of_nonneg (x : double) (fl : Z) :
  Double.leb Double.zero x = true -> Double.floor x = Some fl -> 0 <= fl.
Proof.
  destruct x as [s | s | | s m e]; cbn [Double.floor];
    try discriminate; intros Hle Hfl; injection Hfl as <-; [lia | ].
  destruct s; [discriminate | ].
  unfold Double.signed, cond_Zopp.
  destruct (0 <=? e) eqn:E.
  - apply Z.mul_nonneg_nonneg; [lia | apply Z.pow_nonneg; lia].
  - apply Z.leb_gt in E.
    apply Z.div_pos; [lia | apply Z.pow_pos_nonneg; lia].
Qed.

Lemma py_int_of_nonneg_floor (v : pyobj) (fl : Z) :
  py_floor v = Some fl -> 0 <= fl -> py_int v = inr fl.
Proof.
  destruct v as [z | b | x | ]; cbn [py_floor py_int]; try discriminate.
  - now intros [= ->].
  - now intros [= ->].
  - intros Hfl Hpos. now rewrite (trunc_of_nonneg_floor x fl Hfl Hpos).
Qed.

(** ** The sampling loop *)

Section EstimatorFacts.

Context {rng : Type} {RS : RandomSource rng}.

Lemma draws_add (n m : nat) (g : rng) :
  draws (n + m) g = draws m (draws n g).
Proof. unfold draws. now rewrite Nat.add_comm, Nat.iter_add. Qed.

(** One trial adds 0 or 1 to the count and draws twice. *)
Lemma trial_spec (c : Z) (g : rng) (step : Z) :
  c <= fst (trial (c, g) step) <= c + 1
  /\ snd (trial (c, g) step) = draws 2 g.
Proof.
  unfold trial, draws. cbn [Nat.iter nat_rect].
  destruct (random_uniform01 g) as [x g1]. cbn [snd].
  destruct (random_uniform01 g1) as [y g2]. cbn [fst snd].
  split; [ | reflexivity].
  destruct (Double.leb _ _); cbn [Z.b2z]; lia.
Qed.

Lemma fold_trial_spec (l : list Z) :
  forall (c : Z) (g : rng),
    c <= fst (fold_left trial l (c, g)) <= c + Z.of_nat (length l)
    /\ snd (fold_left trial l (c, g)) = draws (2 * length l) g.
Proof.
  induction l as [ | step l IH]; intros c g.
  - cbn. split; [lia | reflexivity].
  - cbn [fold_left length].
    destruct (trial_spec c g step) as [Hc Hg].
    destruct (trial (c, g) step) as [c1 g1]. cbn [fst snd] in Hc, Hg.
    destruct (IH c1 g1) as [IHc IHg]. split; [lia | ].
    rewrite IHg, Hg, <- draws_add. f_equal. lia.
Qed.

(** What a call that gets past [int(number_estimates)] does. *)
Lemma estimate_spec (v : pyobj) (k : Z) (g : rng) :
  py_int v = inr k ->
  exists c : Z,
    estimate_number_points_in_quarter_circle v g
    = (inr c, draws (2 * Z.to_nat k) g)
    /\ 0 <= c <= Z.of_nat (Z.to_nat k).
Proof.
  intros Hk. unfold estimate_number_points_in_quarter_circle. rewrite Hk.
  destruct (fold_trial_spec (py_range k) 0 g) as [Hc Hg].
  rewrite length_py_range in Hc, Hg.
  destruct (fold_left trial (py_range k) (0, g)) as [c g'].
  cbn [fst snd] in Hc, Hg. exists c. now subst g'.
Qed.

Lemma estimate_raises (v : pyobj) (e : exn) (g : rng) :
  py_int v = inl e ->
  estimate_number_points_in_quarter_circle v g = (inl e, g).
Proof.
  intros He. unfold estimate_number_points_in_quarter_circle.
  now rewrite He.
Qed.

Lemma draws_succ (n : nat) (g : rng) :
  draws (S n) g = snd (random_uniform01 (draws n g)).
Proof. reflexivity. Qed.

End EstimatorFacts.

(** The counting generator counts. *)
Lemma counting_draws {rng : Type} {RS : RandomSource rng}
    (n : nat) (g : rng) (calls : nat) :
  draws (RS := CountingSource) n (g, calls) = (draws n g, (calls + n)%nat).
Proof.
  induction n as [ | n IH].
  - cbn. f_equal. lia.
  - rewrite (draws_succ (RS := CountingSource)), IH, draws_succ.
    cbn [random_uniform01 CountingSource].
    destruct (random_uniform01 (draws n g)) as [x g']. cbn [snd].
    f_equal. lia.
Qed.

(** ** The aggregation *)

Lemma fold_left_add (l : list Z) (acc : Z) :
  fold_left Z.add l acc = acc + py_sum l.
Proof.
  unfold py_sum. revert acc.
  induction l as [ | c l IH]; intros acc; cbn [fold_left]; [lia | ].
  rewrite IH, (IH (0 + c)). lia.
Qed.

Lemma py_sum_bounds (l : list Z) (hi : Z) :
  Forall (fun c => 0 <= c <= hi) l ->
  0 <= py_sum l <= hi * Z.of_nat (length l).
Proof.
  induction 1 as [ | c l Hc _ IH]; [cbn; lia | ].
  unfold py_sum in *. cbn [fold_left length].
  rewrite fold_left_add. unfold py_sum. lia.
Qed.

Lemma holds_from_sound (f : Z -> bool) (count : nat) :
  forall t : Z,
    holds_from f count t = true ->
    forall j : Z, t <= j < t + Z.of_nat count -> f j = true.
Proof.
  induction count as [ | c IH]; intros t H j Hj; [lia | ].
  cbn [holds_from] in H. apply andb_true_iff in H. destruct H as [H0 H].
  destruct (Z.eq_dec j t) as [-> | Hne]; [exact H0 | ].
  apply (IH (t + 1)); [exact H | lia].
Qed.

Lemma pi_estimate_rounded_at_upto_10000 :
  holds_from pi_estimate_rounded_at (Z.to_nat 10001) 0 = true.
Proof. now vm_compute. Qed.

Lemma pi_estimate_rounded_upto_10000 :
  forallb pi_estimate_rounded (seq 0 (Z.to_nat 10001)) = true.
Proof.
  apply forallb_forall. intros total Hin. apply in_seq in Hin.
  change (pi_estimate_rounded total)
    with (pi_estimate_rounded_at (Z.of_nat total)).
  apply (holds_from_sound _ _ 0 pi_estimate_rounded_at_upto_10000). lia.
Qed.

(** ** The split of the work *)


(** ** List repetition *)

Lemma PY_SSIZE_T_MAX_eighth : PY_SSIZE_T_MAX / 8 = 1152921504606846975.
Proof. reflexivity. Qed.

Lemma py_list_repeat_within_fits {A : Type} (capacity : Z) (x : A) (b : Z) :
  - PY_SSIZE_T_MAX - 1 <= b <= Z.min capacity (PY_SSIZE_T_MAX / 8) ->
  py_list_repeat_within capacity x b = inr (repeat x (Z.to_nat b)).
Proof.
  intros [Hlo Hhi]. unfold py_list_repeat_within.
  assert (Hmax : b <= PY_SSIZE_T_MAX).
  { pose proof (Z.le_min_r capacity (PY_SSIZE_T_MAX / 8)) as Hmin.
    rewrite PY_SSIZE_T_MAX_eighth in *. unfold PY_SSIZE_T_MAX. lia. }
  replace (b <? - PY_SSIZE_T_MAX - 1) with false
    by (symmetry; apply Z.ltb_ge; lia).
  replace (PY_SSIZE_T_MAX <? b) with false
    by (symmetry; apply Z.ltb_ge; lia).
  cbn [orb]. destruct (b <=? 0) eqn:Hb.
  - apply Z.leb_le in Hb. replace (Z.to_nat b) with O by lia. reflexivity.
  - replace (Z.min capacity (PY_SSIZE_T_MAX / 8) <? b) with false
      by (symmetry; apply Z.ltb_ge; lia).
    reflexivity.
Qed.

(** * The claims *)

(** C2.  [fib] is a Fibonacci function.  For a non-negative integer [n]
    whose Fibonacci number F(n) is exactly representable as a double,
    [fib(n)] returns a double whose exact value is F(n); for [n <= 0] the
    range is empty, the loop body never runs and [fib(n)] returns [0.0]. *)
Theorem fib_computes_Fibonacci (n : Z) :
  (0 <= n ->
   Double.representable (inject_Z (Fibonacci (Z.to_nat n))) ->
   exists x : double,
     fib (PyInt n) = inr x
     /\ Double.represents x (inject_Z (Fibonacci (Z.to_nat n))))
  /\ (n <= 0 -> py_range n = [] /\ fib (PyInt n) = inr Double.zero).
Proof.
  split.
  - intros _ Hrep. rewrite fib_int. eexists. split; [reflexivity | ].
    destruct (le_lt_dec 79 (Z.to_nat n)) as [Hge | Hlt].
    + now apply Fibonacci_not_representable in Hrep.
    + now apply fib_loop_exact.
  - intros Hn. split; [now apply py_range_nonpos | ].
    rewrite fib_int. replace (Z.to_nat n) with O by lia. reflexivity.
Qed.

Lemma fib_computes_Fibonacci_witness :
  (exists x : double,
     fib (PyInt 10) = inr x /\ Double.represents x (inject_Z 55))
  /\ (py_range (-3) = [] /\ fib (PyInt (-3)) = inr Double.zero).
Proof.
  split.
  - apply (proj1 (fib_computes_Fibonacci 10)); [lia | ].
    exists (Double.of_Z 55). split; reflexivity.
  - apply (proj2 (fib_computes_Fibonacci (-3))). lia.
Defined.

(** C8.  The statically typed Cython [fib] agrees with the pure-Python
    one on every integer that fits a C [int]: the conversion succeeds, the
    C loop meets no signed overflow, and it returns the very double that
    the Python loop returns, which is [0.0] when [n <= 0]. *)
Theorem cython_fib_agrees_with_python_fib (n : Z) :
  INT_MIN <= n <= INT_MAX ->
  exists x : double,
    fib (PyInt n) = inr x
    /\ cy_fib n = inr (Some x)
    /\ (n <= 0 -> x = Double.zero).
Proof.
  intros Hn. rewrite fib_int. eexists. split; [reflexivity | ]. split.
  - unfold cy_fib. rewrite (as_c_int_in_range n Hn). cbn [bind]. unfold ret.
    f_equal. apply cy_for_spec; [lia | f_equal; lia].
  - intros Hle. replace (Z.to_nat n) with O by lia. reflexivity.
Qed.

Lemma cython_fib_agrees_with_python_fib_witness :
  exists x : double,
    fib (PyInt 10) = inr x
    /\ cy_fib 10 = inr (Some x)
    /\ (10 <= 0 -> x = Double.zero).
Proof.
  apply (cython_fib_agrees_with_python_fib 10). unfold INT_MIN, INT_MAX. lia.
Defined.

(** C1, as stated, fails.  Right after [random.seed(0)] the first call on
    the input [1] returns 0 and the second call on the same input returns
    1, and the first call leaves the generator in another state than it
    found it. *)
Lemma estimate_is_not_pure :
  fst (estimate_number_points_in_quarter_circle (PyInt 1) seeded_generator)
  = inr 0
  /\ fst (estimate_number_points_in_quarter_circle (PyInt 1)
            (snd (estimate_number_points_in_quarter_circle
                    (PyInt 1) seeded_generator)))
     = inr 1
  /\ snd (estimate_number_points_in_quarter_circle (PyInt 1) seeded_generator)
     <> seeded_generator.
Proof.
  split; [now vm_compute | split; [now vm_compute | ]].
  intros H. apply (f_equal MT.index) in H. vm_compute in H. discriminate H.
Qed.

(** C1, amended.  The sampler is a function of its argument and of the
    state of the random generator: a call whose [int(number_estimates)]
    raises leaves the generator as it was, and any other call leaves it
    where [2 * max(int(number_estimates), 0)] calls of
    [random.uniform(0, 1)] take it. *)
Theorem estimate_advances_generator {rng : Type} {RS : RandomSource rng}
    (number_estimates : pyobj) (g : rng) :
  snd (estimate_number_points_in_quarter_circle number_estimates g)
  = match py_int number_estimates with
    | inl _ => g
    | inr k => draws (2 * Z.to_nat k) g
    end.
Proof.
  destruct (py_int number_estimates) as [e | k] eqn:Hk.
  - now rewrite (estimate_raises _ _ _ Hk).
  - destruct (estimate_spec _ _ g Hk) as [c [Hc _]]. now rewrite Hc.
Qed.

(** C3.  None of the three functions handles a failure.  The sampler
    raises exactly the error that [int(number_estimates)] raises, without
    drawing a number; [fib] raises exactly the error that [range(n)]
    raises; the Cython [fib] raises exactly the error of the conversion of
    its argument to a C [int].  No result is produced in these cases, and
    no other error arises. *)
Theorem errors_propagate_unchanged {rng : Type} {RS : RandomSource rng}
    (v : pyobj) (n : Z) (e : exn) (g : rng) :
  (py_int v = inl e ->
   estimate_number_points_in_quarter_circle v g = (inl e, g))
  /\ (fst (estimate_number_points_in_quarter_circle v g) = inl e ->
      py_int v = inl e)
  /\ (py_index v = inl e <-> fib v = inl e)
  /\ (as_c_int n = inl e <-> cy_fib n = inl e).
Proof.
  repeat split.
  - apply estimate_raises.
  - destruct (py_int v) as [e' | k] eqn:Hk.
    + rewrite (estimate_raises _ _ _ Hk). cbn [fst]. congruence.
    + destruct (estimate_spec _ _ g Hk) as [c [Hc _]]. rewrite Hc.
      discriminate.
  - unfold fib. destruct (py_index v); cbn [bind]; same_error.
  - unfold fib. destruct (py_index v); cbn [bind]; same_error.
  - unfold cy_fib. destruct (as_c_int n); cbn [bind]; same_error.
  - unfold cy_fib. destruct (as_c_int n); cbn [bind]; same_error.
Qed.

Lemma errors_propagate_unchanged_witness :
  estimate_number_points_in_quarter_circle (PyFloat S754_nan) seeded_generator
  = (inl ValueError, seeded_generator)
  /\ fib (PyFloat Double.one) = inl TypeError
  /\ cy_fib (2 ^ 31) = inl OverflowError.
Proof.
  split; [ | split].
  - apply (errors_propagate_unchanged (PyFloat S754_nan) 0 ValueError).
    reflexivity.
  - apply (errors_propagate_unchanged
             (RS := MersenneTwister) (PyFloat Double.one) 0 TypeError
             seeded_generator).
    reflexivity.
  - apply (errors_propagate_unchanged
             (RS := MersenneTwister) PyNone (2 ^ 31) OverflowError
             seeded_generator).
    reflexivity.
Defined.

(** C9.  The sampler accepts a float.  On a finite float [x >= 0] the
    conversion [int(x)] keeps [floor(x)], the call does on [x] exactly what
    it does on the integer [floor(x)], and it calls [random.uniform] twice
    in each of exactly [floor(x)] trials.  The driver's quotient
    [10000 / 16] is the float 625.0, so that each worker task runs exactly
    625 trials. *)
Theorem estimate_truncates_float_input {rng : Type} {RS : RandomSource rng}
    (x : double) (fl : Z) (g : rng) (calls : nat) :
  Double.leb Double.zero x = true ->
  Double.floor x = Some fl ->
  py_int (PyFloat x) = inr fl
  /\ estimate_number_points_in_quarter_circle (PyFloat x) g
     = estimate_number_points_in_quarter_circle (PyInt fl) g
  /\ snd (snd (estimate_number_points_in_quarter_circle
                 (RS := CountingSource) (PyFloat x) (g, calls)))
     = (calls + 2 * Z.to_nat fl)%nat
  /\ exists w : double,
       number_samples_per_worker_task = inr w
       /\ Double.represents w (inject_Z 625)
       /\ py_int (PyFloat w) = inr 625
       /\ snd (snd (estimate_number_points_in_quarter_circle
                      (RS := CountingSource) (PyFloat w) (g, calls)))
          = (calls + 2 * 625)%nat.
Proof.
  intros Hx Hfl.
  assert (Hint : py_int (PyFloat x) = inr fl).
  { apply py_int_of_nonneg_floor; [exact Hfl | ].
    exact (floor_of_nonneg x fl Hx Hfl). }
  split; [exact Hint | ]. split; [ | split].
  - unfold estimate_number_points_in_quarter_circle. now rewrite Hint.
  - destruct (estimate_spec (RS := CountingSource) _ _ (g, calls) Hint)
      as [c [Hc _]].
    now rewrite Hc, counting_draws.
  - exists (Double.of_Z 625).
    split; [now vm_compute | ]. split; [now vm_compute | ].
    split; [now vm_compute | ].
    assert (H625 : py_int (PyFloat (Double.of_Z 625)) = inr 625)
      by now vm_compute.
    destruct (estimate_spec (RS := CountingSource) _ _ (g, calls) H625)
      as [c [Hc _]].
    now rewrite Hc, counting_draws.
Qed.

Lemma estimate_truncates_float_input_witness :
  py_int (PyFloat (S754_finite false 7881299347898368 (-51))) = inr 3
  /\ estimate_number_points_in_quarter_circle
       (PyFloat (S754_finite false 7881299347898368 (-51))) seeded_generator
     = estimate_number_points_in_quarter_circle (PyInt 3) seeded_generator.
Proof.
  destruct (estimate_truncates_float_input
              (S754_finite false 7881299347898368 (-51)) 3 seeded_generator 0)
    as [Hint [Hsame _]]; [reflexivity | now vm_compute | ].
  split; [exact Hint | exact Hsame].
Defined.

(** C6, as stated, fails: the equation does not hold exactly.  For counts
    that sum to 7942, the total behind the value 3.1768 that the notebook
    prints, the double [pi_estimate] is not the rational 4 * 7942 / 10000. *)
Lemma pi_estimate_is_not_exact :
  exists x : double,
    pi_estimate [502; 496; 496; 496; 496; 496; 496; 496;
                 496; 496; 496; 496; 496; 496; 496; 496] = inr x
    /\ ~ Double.represents x (4 * 7942 # 10000).
Proof.
  eexists. split; [now vm_compute | ].
  vm_compute. intros H. discriminate H.
Qed.

(** C6, amended.  [pi_estimate] is the double-precision quotient of four
    times the sum of the counts by 10000: a finite double within a relative
    error of 2^-53 of the exact quotient.  With 16 counts in [0, 625] it
    lies in the closed interval [0, 4]. *)
Theorem pi_estimate_rounded_and_bounded (number_in_unit_circles : list Z) :
  length number_in_unit_circles = Z.to_nat number_parallel_blocks ->
  Forall (fun c => 0 <= c <= 625) number_in_unit_circles ->
  exists (x : double) (v : Q),
    pi_estimate number_in_unit_circles = inr x
    /\ Double.to_Q x = Some v
    /\ (Qabs (v - (4 * py_sum number_in_unit_circles # 10000))
        <= (4 * py_sum number_in_unit_circles # 10000) * (1 # 2 ^ 53))%Q
    /\ (inject_Z 0 <= v <= inject_Z 4)%Q.
Proof.
  intros Hlen Hall.
  pose proof (py_sum_bounds _ _ Hall) as Hsum. rewrite Hlen in Hsum.
  change (625 * Z.of_nat (Z.to_nat number_parallel_blocks))
    with 10000 in Hsum.
  assert (Hchk : pi_estimate_rounded
                   (Z.to_nat (py_sum number_in_unit_circles)) = true).
  { apply (proj1 (forallb_forall pi_estimate_rounded _)
                 pi_estimate_rounded_upto_10000).
    apply in_seq. lia. }
  unfold pi_estimate_rounded in Hchk. rewrite Z2Nat.id in Hchk by lia.
  unfold pi_estimate.
  destruct (py_truediv _ _) as [e | x]; [discriminate | ].
  destruct (Double.to_Q x) as [v | ] eqn:Hv; [ | discriminate].
  cbv zeta in Hchk.
  apply andb_true_iff in Hchk. destruct Hchk as [Hchk H4].
  apply andb_true_iff in Hchk. destruct Hchk as [Herr H0].
  apply Qle_bool_iff in Herr, H0, H4.
  exists x, v. repeat split; first [reflexivity | assumption].
Qed.

Lemma pi_estimate_rounded_and_bounded_witness :
  exists (x : double) (v : Q),
    pi_estimate [502; 496; 496; 496; 496; 496; 496; 496;
                 496; 496; 496; 496; 496; 496; 496; 496] = inr x
    /\ Double.to_Q x = Some v
    /\ (inject_Z 0 <= v <= inject_Z 4)%Q.
Proof.
  destruct (pi_estimate_rounded_and_bounded
              [502; 496; 496; 496; 496; 496; 496; 496;
               496; 496; 496; 496; 496; 496; 496; 496])
    as [x [v [Hx [Hv [_ Hb]]]]].
  - reflexivity.
  - repeat constructor; lia.
  - exists x, v. repeat split; tauto.
Defined.




(** * Further properties of the code *)

(** ** [fib] beyond the exact range *)

Lemma fib_loop_succ_r (k : nat) (st : double * double) :
  fib_loop (S k) st = fib_step (fib_loop k st) 0.
Proof.
  revert st. induction k as [ | k IH]; intros st; [reflexivity | ].
  change (fib_loop (S (S k)) st) with (fib_loop (S k) (fib_step st 0)).
  now rewrite IH.
Qed.

Lemma fib_loop_add (j k : nat) (st : double * double) :
  fib_loop (j + k) st = fib_loop k (fib_loop j st).
Proof.
  revert st. induction j as [ | j IH]; intros st; [reflexivity | ].
  change (fib_loop (S j + k) st) with (fib_loop (j + k) (fib_step st 0)).
  now rewrite IH.
Qed.

Lemma fib_scan_sound (check : nat -> Z -> double -> double -> bool)
    (st0 : double * double) (count : nat) :
  forall k : nat,
    fib_scan check count k (fst (Fibonacci_pair k)) (snd (Fibonacci_pair k))
             (fib_loop k st0) = true ->
    forall j : nat, (k <= j < k + count)%nat ->
      check j (fst (Fibonacci_pair j))
            (fst (fib_loop j st0)) (snd (fib_loop j st0)) = true.
Proof.
  induction count as [ | c IH]; intros k H j Hj; [lia | ].
  cbn [fib_scan] in H. apply andb_true_iff in H. destruct H as [H0 H].
  destruct (Nat.eq_dec j k) as [-> | Hne]; [exact H0 | ].
  apply (IH (S k)); [ | lia].
  now rewrite Fibonacci_pair_succ, fib_loop_succ_r.
Qed.

Lemma fib_states_ok :
  fib_scan fib_state_ok 1477 0 (fst (Fibonacci_pair 0))
           (snd (Fibonacci_pair 0)) (fib_loop 0 (Double.zero, Double.one))
  = true.
Proof. now vm_compute. Qed.

Lemma fib_state_ok_upto_1476 (k : nat) :
  (k <= 1476)%nat ->
  fib_state_ok k (Fibonacci k)
    (fst (fib_loop k (Double.zero, Double.one)))
    (snd (fib_loop k (Double.zero, Double.one))) = true.
Proof.
  intros Hk. rewrite Fibonacci_fast.
  apply (fib_scan_sound fib_state_ok _ 1477 0 fib_states_ok). lia.
Qed.

Lemma fib_loop_is_infinite_at_1477 :
  exists b : double,
    fib_loop 1477 (Double.zero, Double.one) = (S754_infinity false, b)
    /\ adds_to_infinity b = true.
Proof. eexists. split; now vm_compute. Qed.

Lemma fib_loop_stays_infinite (k : nat) :
  forall b : double,
    adds_to_infinity b = true ->
    fst (fib_loop k (S754_infinity false, b)) = S754_infinity false.
Proof.
  induction k as [ | k IH]; intros b Hb; [reflexivity | ].
  cbn [fib_loop fib_step].
  replace (Double.add (S754_infinity false) b) with (S754_infinity false)
    by (destruct b as [s | [ | ] | | s m e]; try reflexivity; discriminate).
  now apply IH.
Qed.

Lemma fib_loop_overflow (k : nat) :
  (1477 <= k)%nat ->
  fst (fib_loop k (Double.zero, Double.one)) = S754_infinity false.
Proof.
  intros Hk. destruct fib_loop_is_infinite_at_1477 as [b [Hb Hgood]].
  replace k with (1477 + (k - 1477))%nat by lia.
  rewrite fib_loop_add, Hb. now apply fib_loop_stays_infinite.
Qed.

Lemma fib_value_upto_1476 (k : nat) :
  (k <= 1476)%nat ->
  exists v : Q,
    Double.to_Q (fst (fib_loop k (Double.zero, Double.one))) = Some v
    /\ (Qabs (v - inject_Z (Fibonacci k))
        <= inject_Z (Fibonacci k) * (1 # 2 ^ 49))%Q.
Proof.
  intros Hk. pose proof (fib_state_ok_upto_1476 k Hk) as H.
  unfold fib_state_ok in H.
  destruct (Double.to_Q _) as [v | ]; [ | discriminate].
  apply andb_true_iff in H. destruct H as [H _].
  apply Qle_bool_iff in H. now exists v.
Qed.

Lemma fib_value_next (k : nat) :
  (2 <= k < 1476)%nat ->
  (value (fst (fib_loop k (Double.zero, Double.one)))
   < value (fst (fib_loop (S k) (Double.zero, Double.one))))%Q.
Proof.
  intros Hk.
  assert (Hk' : (k <= 1476)%nat) by lia.
  pose proof (fib_state_ok_upto_1476 k Hk') as H.
  unfold fib_state_ok in H. rewrite fib_loop_succ_r. unfold value.
  destruct (fib_loop k (Double.zero, Double.one)) as [a b].
  cbn [fst snd fib_step] in *.
  destruct (Double.to_Q a) as [v | ]; [ | discriminate].
  apply andb_true_iff in H. destruct H as [_ H].
  replace (k <? 2)%nat with false in H by (symmetry; apply Nat.ltb_ge; lia).
  replace (1476 <=? k)%nat with false in H
    by (symmetry; apply Nat.leb_gt; lia).
  cbn [orb] in H.
  destruct (Double.to_Q (Double.add a b)) as [w | ]; [ | discriminate].
  apply negb_true_iff in H. apply Qnot_le_lt. intros Hle.
  apply Qle_bool_iff in Hle. congruence.
Qed.

Lemma fib_value_increasing (n m : nat) :
  (2 <= n)%nat -> (n < m)%nat -> (m <= 1476)%nat ->
  (value (fst (fib_loop n (Double.zero, Double.one)))
   < value (fst (fib_loop m (Double.zero, Double.one))))%Q.
Proof.
  intros Hn Hlt. induction Hlt as [ | m Hlt IH]; intros Hm.
  - apply fib_value_next. lia.
  - eapply Qlt_trans; [apply IH; lia | apply fib_value_next; lia].
Qed.

(** X1.  [fib] never raises on an integer and overflows silently: up to
    [n = 1476] it returns a finite double, and from [n = 1477] on it
    returns plus infinity. *)
Theorem fib_overflows_to_infinity (n : Z) :
  (n <= 1476 ->
   exists (x : double) (v : Q),
     fib (PyInt n) = inr x /\ Double.to_Q x = Some v)
  /\ (1477 <= n -> fib (PyInt n) = inr (S754_infinity false)).
Proof.
  split; intros Hn; rewrite fib_int.
  - destruct (fib_value_upto_1476 (Z.to_nat n)) as [v [Hv _]]; [lia | ].
    eexists. exists v. split; [reflexivity | exact Hv].
  - f_equal. apply fib_loop_overflow. lia.
Qed.

Lemma fib_overflows_to_infinity_witness :
  (exists (x : double) (v : Q),
     fib (PyInt 1476) = inr x /\ Double.to_Q x = Some v)
  /\ fib (PyInt 1477) = inr (S754_infinity false).
Proof.
  split.
  - apply (proj1 (fib_overflows_to_infinity 1476)). lia.
  - apply (proj2 (fib_overflows_to_infinity 1477)). lia.
Defined.

(** X2.  Up to the overflow, [fib(n)] approximates the Fibonacci number:
    for [0 <= n <= 1476] the exact value of the double it returns is within
    a relative error of 2^-49 of F(n). *)
Theorem fib_is_accurate (n : Z) :
  0 <= n <= 1476 ->
  exists (x : double) (v : Q),
    fib (PyInt n) = inr x
    /\ Double.to_Q x = Some v
    /\ (Qabs (v - inject_Z (Fibonacci (Z.to_nat n)))
        <= inject_Z (Fibonacci (Z.to_nat n)) * (1 # 2 ^ 49))%Q.
Proof.
  intros Hn. rewrite fib_int.
  destruct (fib_value_upto_1476 (Z.to_nat n)) as [v [Hv Herr]]; [lia | ].
  eexists. exists v. split; [reflexivity | split; assumption].
Qed.

Lemma fib_is_accurate_witness :
  exists (x : double) (v : Q),
    fib (PyInt 100) = inr x
    /\ Double.to_Q x = Some v
    /\ (Qabs (v - inject_Z (Fibonacci (Z.to_nat 100)))
        <= inject_Z (Fibonacci (Z.to_nat 100)) * (1 # 2 ^ 49))%Q.
Proof. apply (fib_is_accurate 100). lia. Defined.

(** X3.  Rounding never stalls the sequence: for [2 <= n < m <= 1476] the
    double [fib(m)] is strictly larger than the double [fib(n)], so that
    distinct arguments in that range give distinct results. *)
Theorem fib_is_strictly_increasing (n m : Z) :
  2 <= n -> n < m -> m <= 1476 ->
  exists (x y : double) (v w : Q),
    fib (PyInt n) = inr x /\ fib (PyInt m) = inr y
    /\ Double.to_Q x = Some v /\ Double.to_Q y = Some w
    /\ (v < w)%Q.
Proof.
  intros Hn Hlt Hm. rewrite !fib_int.
  destruct (fib_value_upto_1476 (Z.to_nat n)) as [v [Hv _]]; [lia | ].
  destruct (fib_value_upto_1476 (Z.to_nat m)) as [w [Hw _]]; [lia | ].
  pose proof (fib_value_increasing (Z.to_nat n) (Z.to_nat m)) as H.
  unfold value in H. rewrite Hv, Hw in H.
  eexists. eexists. exists v, w.
  repeat split; try reflexivity; try assumption. apply H; lia.
Qed.

Lemma fib_is_strictly_increasing_witness :
  exists (x y : double) (v w : Q),
    fib (PyInt 78) = inr x /\ fib (PyInt 79) = inr y
    /\ Double.to_Q x = Some v /\ Double.to_Q y = Some w
    /\ (v < w)%Q.
Proof. apply (fib_is_strictly_increasing 78 79); lia. Defined.

(** X4.  Outside the range of a C [int] the two versions part: the Cython
    [fib] refuses the argument with an [OverflowError], where the Python
    [fib] returns plus infinity above [INT_MAX] and [0.0] below
    [INT_MIN]. *)
Theorem cython_fib_refuses_wide_arguments (n : Z) :
  (INT_MAX < n ->
   cy_fib n = inl OverflowError
   /\ fib (PyInt n) = inr (S754_infinity false))
  /\ (n < INT_MIN ->
      cy_fib n = inl OverflowError /\ fib (PyInt n) = inr Double.zero).
Proof.
  assert (Hout : ~ INT_MIN <= n <= INT_MAX -> cy_fib n = inl OverflowError).
  { intros Hn. unfold cy_fib, as_c_int.
    destruct (INT_MIN <=? n) eqn:Hlo; [ | reflexivity].
    destruct (n <=? INT_MAX) eqn:Hhi; [ | reflexivity].
    apply Z.leb_le in Hlo. apply Z.leb_le in Hhi. lia. }
  unfold INT_MAX, INT_MIN in *.
  split; intros Hn; (split; [apply Hout; lia | ]); rewrite fib_int.
  - f_equal. apply fib_loop_overflow. lia.
  - replace (Z.to_nat n) with O by lia. reflexivity.
Qed.

Lemma cython_fib_refuses_wide_arguments_witness :
  (cy_fib (2 ^ 31) = inl OverflowError
   /\ fib (PyInt (2 ^ 31)) = inr (S754_infinity false))
  /\ (cy_fib (- 2 ^ 31 - 1) = inl OverflowError
      /\ fib (PyInt (- 2 ^ 31 - 1)) = inr Double.zero).
Proof.
  split.
  - apply (proj1 (cython_fib_refuses_wide_arguments (2 ^ 31))).
    unfold INT_MAX. lia.
  - apply (proj2 (cython_fib_refuses_wide_arguments (- 2 ^ 31 - 1))).
    unfold INT_MIN. lia.
Defined.

(** ** More on the sampling loop *)

Section SamplerFacts.

Context {rng : Type} {RS : RandomSource rng}.

Lemma fold_left_trial (l : list Z) (acc : Z * rng) :
  fold_left trial l acc = run_trials (length l) acc.
Proof.
  revert acc. induction l as [ | step l IH]; intros acc; [reflexivity | ].
  cbn [fold_left length run_trials]. now rewrite IH.
Qed.

Lemma run_trials_add (j k : nat) (acc : Z * rng) :
  run_trials (j + k) acc = run_trials k (run_trials j acc).
Proof.
  revert acc. induction j as [ | j IH]; intros acc; [reflexivity | ].
  cbn [Nat.add run_trials]. now rewrite IH.
Qed.

(** The loop adds the points inside the quarter circle to the count. *)
Lemma run_trials_counts (k : nat) :
  forall (c : Z) (g : rng),
    run_trials k (c, g)
    = (c + Z.of_nat (length (filter in_unit_circle (drawn_points k g))),
       draws (2 * k) g).
Proof.
  induction k as [ | k IH]; intros c g.
  - cbn. f_equal. lia.
  - cbn [run_trials drawn_points]. unfold trial at 1.
    replace (2 * S k)%nat with (2 + 2 * k)%nat by lia.
    rewrite draws_add. unfold draws at 2. cbn [Nat.iter nat_rect].
    destruct (random_uniform01 g) as [x g1]. cbn [snd].
    destruct (random_uniform01 g1) as [y g2]. cbn [snd].
    rewrite IH. cbn [filter]. unfold in_unit_circle at 2. cbn [fst snd].
    destruct (Double.leb _ _); cbn [Z.b2z length]; f_equal; lia.
Qed.

Lemma estimate_int (k : Z) (g : rng) :
  estimate_number_points_in_quarter_circle (PyInt k) g
  = (inr (fst (run_trials (Z.to_nat k) (0, g))),
     snd (run_trials (Z.to_nat k) (0, g))).
Proof.
  unfold estimate_number_points_in_quarter_circle. cbn [py_int ret].
  rewrite fold_left_trial, length_py_range.
  now destruct (run_trials (Z.to_nat k) (0, g)).
Qed.

Lemma estimate_of_py_int (v : pyobj) (k : Z) (g : rng) :
  py_int v = inr k ->
  estimate_number_points_in_quarter_circle v g
  = estimate_number_points_in_quarter_circle (PyInt k) g.
Proof.
  intros Hk. unfold estimate_number_points_in_quarter_circle.
  now rewrite Hk.
Qed.

End SamplerFacts.

Lemma trunc_below_one (x : double) (q : Q) (k : Z) :
  Double.to_Q x = Some q -> (q < inject_Z 1)%Q -> Double.trunc x = Some k ->
  k <= 0.
Proof.
  destruct x as [s | s | | s m e]; cbn [Double.to_Q Double.trunc];
    try discriminate.
  - intros _ _ [= <-]. lia.
  - intros [= <-] Hq [= <-]. unfold Qlt in Hq.
    destruct (0 <=? e) eqn:E; cbn [inject_Z Qnum Qden] in Hq.
    + apply Z.leb_le in E.
      assert (H2 : 0 < 2 ^ e) by (apply Z.pow_pos_nonneg; lia).
      destruct s; unfold Double.signed, cond_Zopp in *; nia.
    + apply Z.leb_gt in E.
      assert (H2 : 0 < 2 ^ (- e)) by (apply Z.pow_pos_nonneg; lia).
      assert (Hdiv : 0 <= Z.pos m / 2 ^ (- e)) by (apply Z.div_pos; lia).
      destruct s; unfold Double.signed, cond_Zopp in *; [lia | ].
      rewrite Pos2Z.inj_pow, Z2Pos.id in Hq by lia.
      rewrite Z.div_small; lia.
Qed.

(** X5.  A number below 1 asks for no trial: on an integer [n <= 0], on
    [False] and on every finite float [x < 1], negative ones included, the
    sampler returns 0 and leaves the generator as it found it. *)
Theorem estimate_runs_no_trial_below_one {rng : Type} {RS : RandomSource rng}
    (number_estimates : pyobj) (q : Q) (g : rng) :
  py_value number_estimates = Some q ->
  (q < inject_Z 1)%Q ->
  estimate_number_points_in_quarter_circle number_estimates g = (inr 0, g).
Proof.
  intros Hq Hlt.
  assert (Hk : exists k, py_int number_estimates = inr k /\ k <= 0).
  { destruct number_estimates as [z | b | x | ]; cbn [py_value py_int] in *;
      try discriminate.
    - injection Hq as <-. exists z. split; [reflexivity | ].
      unfold Qlt in Hlt. cbn in Hlt. lia.
    - injection Hq as <-. exists (Z.b2z b). split; [reflexivity | ].
      unfold Qlt in Hlt. cbn in Hlt. lia.
    - destruct (Double.trunc x) as [k | ] eqn:Ht.
      + exists k. split; [reflexivity | ].
        exact (trunc_below_one x q k Hq Hlt Ht).
      + destruct x; discriminate. }
  destruct Hk as [k [Hint Hk]].
  rewrite (estimate_of_py_int _ _ _ Hint), estimate_int.
  replace (Z.to_nat k) with O by lia. reflexivity.
Qed.

Lemma estimate_runs_no_trial_below_one_witness :
  estimate_number_points_in_quarter_circle
    (PyFloat (S754_finite true 7881299347898368 (-51))) seeded_generator
  = (inr 0, seeded_generator).
Proof.
  apply (estimate_runs_no_trial_below_one
           (PyFloat (S754_finite true 7881299347898368 (-51)))
           (- 7881299347898368 # 2251799813685248)).
  - reflexivity.
  - reflexivity.
Defined.

(** X6.  Consecutive calls compose: for integers [a, b >= 0], the call on
    [a + b] returns the sum of what a call on [a] and a following call on
    [b] return, and leaves the generator where the second call leaves
    it. *)
Theorem estimate_is_additive {rng : Type} {RS : RandomSource rng}
    (a b : Z) (g : rng) :
  0 <= a -> 0 <= b ->
  exists c1 c2 : Z,
    fst (estimate_number_points_in_quarter_circle (PyInt a) g) = inr c1
    /\ fst (estimate_number_points_in_quarter_circle (PyInt b)
              (snd (estimate_number_points_in_quarter_circle (PyInt a) g)))
       = inr c2
    /\ estimate_number_points_in_quarter_circle (PyInt (a + b)) g
       = (inr (c1 + c2),
          snd (estimate_number_points_in_quarter_circle (PyInt b)
                 (snd (estimate_number_points_in_quarter_circle
                         (PyInt a) g)))).
Proof.
  intros Ha Hb. rewrite !estimate_int. cbn [fst snd].
  eexists. eexists. split; [reflexivity | ]. split; [reflexivity | ].
  rewrite Z2Nat.inj_add, run_trials_add by lia.
  rewrite !run_trials_counts. cbn [fst snd]. reflexivity.
Qed.

Lemma estimate_is_additive_witness :
  exists c1 c2 : Z,
    fst (estimate_number_points_in_quarter_circle (PyInt 1) seeded_generator)
    = inr c1
    /\ fst (estimate_number_points_in_quarter_circle (PyInt 1)
              (snd (estimate_number_points_in_quarter_circle
                      (PyInt 1) seeded_generator)))
       = inr c2
    /\ fst (estimate_number_points_in_quarter_circle
              (PyInt 2) seeded_generator)
       = inr (c1 + c2).
Proof.
  destruct (estimate_is_additive 1 1 seeded_generator)
    as [c1 [c2 [H1 [H2 H]]]]; [lia | lia | ].
  exists c1, c2. split; [exact H1 | split; [exact H2 | ]].
  change (1 + 1) with 2 in H. now rewrite H.
Defined.

(** X7.  What the count counts: when [int(number_estimates)] is [k], the
    sampler returns the number of points [(x, y)], among the first
    [max(k, 0)] points drawn from the generator, with
    [x * x + y * y <= 1.0] in double arithmetic. *)
Theorem estimate_counts_points_in_circle {rng : Type} {RS : RandomSource rng}
    (number_estimates : pyobj) (k : Z) (g : rng) :
  py_int number_estimates = inr k ->
  fst (estimate_number_points_in_quarter_circle number_estimates g)
  = inr (Z.of_nat
           (length (filter in_unit_circle (drawn_points (Z.to_nat k) g)))).
Proof.
  intros Hk. rewrite (estimate_of_py_int _ _ _ Hk), estimate_int.
  now rewrite run_trials_counts.
Qed.

Lemma estimate_counts_points_in_circle_witness :
  fst (estimate_number_points_in_quarter_circle
         (PyFloat (Double.of_Z 625)) seeded_generator)
  = inr (Z.of_nat
           (length (filter in_unit_circle
                           (drawn_points (Z.to_nat 625) seeded_generator)))).
Proof.
  apply (estimate_counts_points_in_circle (PyFloat (Double.of_Z 625)) 625).
  reflexivity.
Defined.

(** X8.  More trials never lower the count: from one generator state, for
    integers [0 <= a <= b], the count for [b] is at least the count for
    [a] and exceeds it by at most [b - a]. *)
Theorem estimate_is_monotone {rng : Type} {RS : RandomSource rng}
    (a b : Z) (g : rng) :
  0 <= a -> a <= b ->
  exists ca cb : Z,
    fst (estimate_number_points_in_quarter_circle (PyInt a) g) = inr ca
    /\ fst (estimate_number_points_in_quarter_circle (PyInt b) g) = inr cb
    /\ ca <= cb <= ca + (b - a).
Proof.
  intros Ha Hab. rewrite !estimate_int. cbn [fst].
  eexists. eexists. split; [reflexivity | ]. split; [reflexivity | ].
  replace (Z.to_nat b) with (Z.to_nat a + Z.to_nat (b - a))%nat by lia.
  rewrite run_trials_add.
  destruct (run_trials (Z.to_nat a) (0, g)) as [ca ga].
  rewrite run_trials_counts. cbn [fst].
  pose proof (filter_length_le in_unit_circle
                (drawn_points (Z.to_nat (b - a)) ga)) as Hle.
  assert (Hlen : forall k g', length (drawn_points k g') = k).
  { induction k as [ | k IH]; intros g'; [reflexivity | ].
    cbn [drawn_points]. destruct (random_uniform01 g') as [x g1].
    destruct (random_uniform01 g1) as [y g2]. cbn [length]. now rewrite IH. }
  rewrite Hlen in Hle. lia.
Qed.

Lemma estimate_is_monotone_witness :
  exists ca cb : Z,
    fst (estimate_number_points_in_quarter_circle (PyInt 625)
           seeded_generator) = inr ca
    /\ fst (estimate_number_points_in_quarter_circle (PyInt 10000)
              seeded_generator) = inr cb
    /\ ca <= cb <= ca + (10000 - 625).
Proof. apply (estimate_is_monotone 625 10000 seeded_generator); lia. Defined.

(** ** The [prange] reduction *)

Lemma sum_list_app (l1 l2 : list Z) :
  sum_list (l1 ++ l2) = sum_list l1 + sum_list l2.
Proof.
  induction l1 as [ | i l1 IH]; [reflexivity | ].
  cbn [app sum_list]. lia.
Qed.

Lemma sum_list_permutation (l1 l2 : list Z) :
  Permutation l1 l2 -> sum_list l1 = sum_list l2.
Proof.
  induction 1 as [ | i l1 l2 _ IH | i j l | l1 l2 l3 _ IH1 _ IH2];
    cbn [sum_list]; lia.
Qed.

Lemma sum_list_nonneg (l : list Z) :
  Forall (fun i => 0 <= i) l -> 0 <= sum_list l.
Proof.
  induction 1 as [ | i l Hi _ IH]; cbn [sum_list]; lia.
Qed.

Lemma sum_list_py_range (n : Z) :
  0 <= n -> 2 * sum_list (py_range n) = n * (n - 1).
Proof.
  intros Hn. unfold py_range. rewrite <- (Z2Nat.id n) at 2 3 by lia.
  induction (Z.to_nat n) as [ | k IH]; [reflexivity | ].
  rewrite seq_S, map_app, sum_list_app. cbn [Nat.add map sum_list]. lia.
Qed.

Lemma py_range_nonneg (n : Z) : Forall (fun i => 0 <= i) (py_range n).
Proof.
  unfold py_range. apply Forall_forall. intros i Hi.
  apply in_map_iff in Hi. destruct Hi as [k [<- _]]. lia.
Qed.

Lemma c_int_add_fits (a b : Z) :
  INT_MIN <= a + b <= INT_MAX -> c_int_add a b = Some (a + b).
Proof.
  intros [Hlo Hhi]. unfold c_int_add.
  apply Z.leb_le in Hlo. apply Z.leb_le in Hhi. now rewrite Hlo, Hhi.
Qed.

Lemma thread_fold_fits (iterations : list Z) :
  forall acc : Z,
    0 <= acc ->
    Forall (fun i => 0 <= i) iterations ->
    acc + sum_list iterations <= INT_MAX ->
    fold_left (fun acc i => match acc with
                            | Some s => c_int_add s i
                            | None => None
                            end) iterations (Some acc)
    = Some (acc + sum_list iterations).
Proof.
  induction iterations as [ | i l IH]; intros acc Hacc Hall Hmax.
  - cbn. f_equal. lia.
  - inversion Hall as [ | ? ? Hi Hl]; subst.
    pose proof (sum_list_nonneg l Hl) as Hnn.
    cbn [fold_left sum_list] in *.
    rewrite c_int_add_fits by (unfold INT_MIN; lia).
    rewrite IH by (try assumption; lia). f_equal. lia.
Qed.

Lemma thread_sum_fits (iterations : list Z) :
  Forall (fun i => 0 <= i) iterations ->
  sum_list iterations <= INT_MAX ->
  thread_sum iterations = Some (sum_list iterations).
Proof.
  intros Hall Hmax. unfold thread_sum.
  now rewrite thread_fold_fits by (try assumption; lia).
Qed.

Lemma prange_sum_fits (schedule : list (list Z)) :
  forall sum : Z,
    Forall (fun i => 0 <= i) (concat schedule) ->
    0 <= sum ->
    sum + sum_list (concat schedule) <= INT_MAX ->
    prange_sum schedule sum = Some (sum + sum_list (concat schedule)).
Proof.
  induction schedule as [ | its schedule IH]; intros sum Hall Hsum Hmax.
  - cbn. f_equal. lia.
  - cbn [concat] in *. apply Forall_app in Hall. destruct Hall as [H1 H2].
    rewrite sum_list_app in *.
    pose proof (sum_list_nonneg _ H1). pose proof (sum_list_nonneg _ H2).
    unfold prange_sum in *. cbn [fold_left].
    rewrite thread_sum_fits by (try assumption; lia).
    rewrite c_int_add_fits by (unfold INT_MIN; lia).
    rewrite IH by (try assumption; lia). f_equal. lia.
Qed.

(** X9.  The [prange] sum does not depend on the schedule.  For [n >= 0]
    with [n * (n - 1) / 2] within a C [int], whatever threads run whichever
    iterations of [range(n)], each once, no addition overflows and the
    reduction leaves [n * (n - 1) / 2] in [sum]: 435 for the notebook's
    [n = 30]. *)
Theorem prange_sum_is_schedule_independent (n : Z)
    (schedule : list (list Z)) :
  0 <= n ->
  n * (n - 1) / 2 <= INT_MAX ->
  is_schedule n schedule ->
  prange_sum schedule 0 = Some (n * (n - 1) / 2).
Proof.
  intros Hn Hmax Hs. unfold is_schedule in Hs.
  pose proof (sum_list_permutation _ _ Hs) as Hsum.
  pose proof (sum_list_py_range n Hn) as Htri.
  assert (Hhalf : n * (n - 1) / 2 = sum_list (concat schedule)).
  { rewrite Hsum, <- Htri, Z.mul_comm. apply Z.div_mul. lia. }
  rewrite Hhalf in *. rewrite prange_sum_fits; [reflexivity | | lia | lia].
  apply (Permutation_Forall (Permutation_sym Hs)), py_range_nonneg.
Qed.

Lemma prange_sum_is_schedule_independent_witness :
  prange_sum [[0; 1; 2; 3; 4; 5; 6; 7]; [8; 9; 10; 11; 12; 13; 14; 15];
              [16; 17; 18; 19; 20; 21; 22]; [23; 24; 25; 26; 27; 28; 29]] 0
  = Some 435.
Proof.
  apply (prange_sum_is_schedule_independent 30).
  - lia.
  - now vm_compute.
  - unfold is_schedule. apply Permutation_refl.
Defined.

(** ** The split for any number of blocks *)

Lemma split_keeps_quotient_upto_10000 :
  holds_from split_keeps_quotient (Z.to_nat 10000) 1 = true.
Proof. now vm_compute. Qed.

(** X10.  For the notebook's 10000 samples and any number of blocks
    [1 <= b <= 10000], the work list holds [b] copies of one float, on which
    the sampler runs exactly [10000 // b] trials; together the [b] entries
    stand for [10000 - 10000 % b] trials, all 10000 only when [b] divides
    10000. *)
Theorem split_runs_the_integer_quotient {rng : Type} {RS : RandomSource rng}
    (b : Z) (g : rng) (calls : nat) :
  1 <= b <= number_samples_in_total ->
  exists x : double,
    number_trials_per_process_of number_samples_in_total b
    = inr (repeat x (Z.to_nat b))
    /\ py_int (PyFloat x) = inr (number_samples_in_total / b)
    /\ snd (snd (estimate_number_points_in_quarter_circle
                   (RS := CountingSource) (PyFloat x) (g, calls)))
       = (calls + 2 * Z.to_nat (number_samples_in_total / b))%nat
    /\ b * (number_samples_in_total / b)
       = number_samples_in_total - number_samples_in_total mod b.
Proof.
  intros Hb. unfold number_samples_in_total in Hb.
  assert (Hchk : split_keeps_quotient b = true).
  { apply (holds_from_sound _ _ 1 split_keeps_quotient_upto_10000). lia. }
  unfold split_keeps_quotient in Hchk.
  unfold number_trials_per_process_of.
  destruct (number_samples_per_worker_task_of number_samples_in_total b)
    as [e | x]; [discriminate | ].
  destruct (py_int (PyFloat x)) as [e | k] eqn:Hk; [discriminate | ].
  apply Z.eqb_eq in Hchk. subst k.
  exists x. split; [ | split; [exact Hk | split]].
  - cbn [bind]. unfold py_list_repeat.
    apply py_list_repeat_within_fits.
    rewrite Z.min_id, PY_SSIZE_T_MAX_eighth. unfold PY_SSIZE_T_MAX. lia.
  - destruct (estimate_spec (RS := CountingSource) _ _ (g, calls) Hk)
      as [c [Hc _]].
    now rewrite Hc, counting_draws.
  - pose proof (Z.div_mod number_samples_in_total b) as Hdm. lia.
Qed.

Lemma split_runs_the_integer_quotient_witness :
  exists x : double,
    number_trials_per_process_of number_samples_in_total 3
    = inr (repeat x (Z.to_nat 3))
    /\ py_int (PyFloat x) = inr (number_samples_in_total / 3).
Proof.
  destruct (split_runs_the_integer_quotient 3 seeded_generator 0)
    as [x [Hl [Hk _]]]; [unfold number_samples_in_total; lia | ].
  exists x. split; [exact Hl | exact Hk].
Defined.

(** ** The estimate as a function of the total *)

Lemma increasing_from_sound (f : Z -> Q) (count : nat) :
  forall t : Z,
    increasing_from f count t (f t) = true ->
    forall j : Z, t <= j < t + Z.of_nat count -> (f j < f (j + 1)%Z)%Q.
Proof.
  induction count as [ | c IH]; intros t H j Hj; [lia | ].
  cbn [increasing_from] in H. cbv zeta in H.
  apply andb_true_iff in H. destruct H as [H0 H].
  destruct (Z.eq_dec j t) as [-> | Hne].
  - apply negb_true_iff in H0. apply Qnot_le_lt. intros Hle.
    apply Qle_bool_iff in Hle. congruence.
  - apply (IH (t + 1)); [exact H | lia].
Qed.

Lemma pi_value_steps_up :
  increasing_from pi_value (Z.to_nat 10000) 0 (pi_value 0) = true.
Proof. now vm_compute. Qed.

Lemma pi_value_increasing (n : Z) (d : nat) :
  0 <= n -> n + 1 + Z.of_nat d <= 10000 ->
  (pi_value n < pi_value (n + 1 + Z.of_nat d)%Z)%Q.
Proof.
  intros Hn. induction d as [ | d IH]; intros Hm.
  - rewrite Z.add_0_r.
    apply (increasing_from_sound _ _ 0 pi_value_steps_up). lia.
  - eapply Qlt_trans; [apply IH; lia | ].
    replace (n + 1 + Z.of_nat (S d)) with (n + 1 + Z.of_nat d + 1) by lia.
    apply (increasing_from_sound _ _ 0 pi_value_steps_up). lia.
Qed.

Lemma pi_estimate_value (l : list Z) :
  0 <= py_sum l <= 10000 ->
  exists x : double,
    pi_estimate l = inr x /\ Double.to_Q x = Some (pi_value (py_sum l)).
Proof.
  intros Hsum.
  assert (Hchk : pi_estimate_rounded (Z.to_nat (py_sum l)) = true).
  { apply (proj1 (forallb_forall pi_estimate_rounded _)
                 pi_estimate_rounded_upto_10000).
    apply in_seq. lia. }
  unfold pi_estimate_rounded in Hchk. unfold pi_value, pi_estimate.
  rewrite Z2Nat.id in Hchk by lia.
  destruct (py_truediv _ _) as [e | x]; [discriminate | ].
  unfold value. destruct (Double.to_Q x) as [v | ] eqn:Hv; [ | discriminate].
  exists x. split; [reflexivity | exact Hv].
Qed.

(** X11.  The estimate tells the totals apart: for two lists of counts
    whose sums lie in [0, 10000], the list with the larger sum has the
    strictly larger [pi_estimate], rounding notwithstanding. *)
Theorem pi_estimate_is_strictly_increasing (l1 l2 : list Z) :
  0 <= py_sum l1 ->
  py_sum l1 < py_sum l2 ->
  py_sum l2 <= number_samples_in_total ->
  exists (x y : double) (v w : Q),
    pi_estimate l1 = inr x /\ pi_estimate l2 = inr y
    /\ Double.to_Q x = Some v /\ Double.to_Q y = Some w
    /\ (v < w)%Q.
Proof.
  unfold number_samples_in_total. intros H0 Hlt Hmax.
  destruct (pi_estimate_value l1) as [x [Hx Hv]]; [lia | ].
  destruct (pi_estimate_value l2) as [y [Hy Hw]]; [lia | ].
  exists x, y. eexists. eexists.
  repeat split; try eassumption.
  replace (py_sum l2)
    with (py_sum l1 + 1 + Z.of_nat (Z.to_nat (py_sum l2 - py_sum l1 - 1)))
    by lia.
  apply pi_value_increasing; lia.
Qed.

Lemma pi_estimate_is_strictly_increasing_witness :
  exists (x y : double) (v w : Q),
    pi_estimate [7941] = inr x /\ pi_estimate [7942] = inr y
    /\ Double.to_Q x = Some v /\ Double.to_Q y = Some w
    /\ (v < w)%Q.
Proof.
  apply (pi_estimate_is_strictly_increasing [7941] [7942]);
    unfold number_samples_in_total; cbn; lia.
Defined.

(** * The count and what the sampler leaves behind *)

Lemma drawn_points_length {rng : Type} {RS : RandomSource rng} (k : nat) :
  forall g : rng, length (drawn_points k g) = k.
Proof.
  induction k as [ | k IH]; intros g; [reflexivity | ].
  cbn [drawn_points]. destruct (random_uniform01 g) as [x g1].
  destruct (random_uniform01 g1) as [y g2]. cbn [length]. now rewrite IH.
Qed.

(** C4, as stated, fails.  The call on the non-negative input 1 leaves
    data behind, the state of the random generator, which is not the state
    it found; and on the non-negative input plus infinity no integer is
    returned, [int] raises [OverflowError]. *)
Lemma estimate_leaves_generator_advanced :
  snd (estimate_number_points_in_quarter_circle (PyInt 1) seeded_generator)
  <> seeded_generator
  /\ fst (estimate_number_points_in_quarter_circle
            (PyFloat (S754_infinity false)) seeded_generator)
     = inl OverflowError.
Proof.
  split; [ | reflexivity].
  intros H. apply (f_equal MT.index) in H. vm_compute in H. discriminate H.
Qed.

(** C4, amended.  On a finite non-negative number [n] (an integer, a
    boolean or a finite float) the sampler returns one integer [c] with
    [0 <= c <= floor(n)]: the number of points, among the [floor(n)] points
    it draws, that fall in the quarter circle.  It keeps no data of its
    own, but it leaves the random generator where [2 * floor(n)] calls of
    [random.uniform(0, 1)] take it.  On plus infinity [int] raises
    [OverflowError]: nothing is returned and the generator is left as it
    was. *)
Theorem estimate_returns_count_and_advances_generator
    {rng : Type} {RS : RandomSource rng} (n : pyobj) (fl : Z) (g : rng) :
  (py_floor n = Some fl ->
   0 <= fl ->
   exists c : Z,
     estimate_number_points_in_quarter_circle n g
     = (inr c, draws (2 * Z.to_nat fl) g)
     /\ c = Z.of_nat (length (filter in_unit_circle
                                     (drawn_points (Z.to_nat fl) g)))
     /\ 0 <= c <= fl)
  /\ estimate_number_points_in_quarter_circle
       (PyFloat (S754_infinity false)) g
     = (inl OverflowError, g).
Proof.
  split; [ | reflexivity].
  intros Hfl Hpos.
  pose proof (py_int_of_nonneg_floor n fl Hfl Hpos) as Hint.
  rewrite (estimate_of_py_int _ _ _ Hint), estimate_int, run_trials_counts.
  cbn [fst snd]. eexists. split; [reflexivity | ]. split; [reflexivity | ].
  pose proof (filter_length_le in_unit_circle
                (drawn_points (Z.to_nat fl) g)) as Hle.
  rewrite drawn_points_length in Hle. lia.
Qed.

Lemma estimate_returns_count_and_advances_generator_witness :
  exists c : Z,
    estimate_number_points_in_quarter_circle
      (PyFloat (Double.of_Z 625)) seeded_generator
    = (inr c, draws (2 * Z.to_nat 625) seeded_generator)
    /\ c = Z.of_nat (length (filter in_unit_circle
                                    (drawn_points (Z.to_nat 625)
                                                  seeded_generator)))
    /\ 0 <= c <= 625.
Proof.
  apply (proj1 (estimate_returns_count_and_advances_generator
                  (PyFloat (Double.of_Z 625)) 625 seeded_generator));
    [reflexivity | lia].
Defined.
